(** * Progressive lot size and adjusted loss support calculator

    A shallow embedding of the numeric core of [app.py]: the module-level
    progression loop (lines 36-63) and
    [calculate_loss_support_with_last_lot] (lines 92-138), together with the
    sidebar defaults (lines 8-17) and the fixed account plans (lines 82-89).

    The script computes with Python numbers.  The embedding is written once
    over an interface [Number] of exactly the operations the script uses,
    and is run at two instances:

    - [Binary64]: IEEE 754 binary64 with round-to-nearest-even, which is
      what a Python [float] is;
    - [Exact]: canonical rationals, the arithmetic in which the algebraic
      identities of the specification are meant ("within floating-point
      tolerance" for the script itself).

    Facts about control flow (where the loops stop, which variable is
    assigned when) are proved for every instance of [Number]; facts that
    need the laws of an ordered field are proved at [Exact].

    Display formatting (the f-strings and [round(_, 5)] applied when a row
    is put in a table) is not part of the embedding: rows hold the numbers
    before formatting. *)

From Stdlib Require Import ZArith QArith Qabs Qcanon Floats List Bool Lia Lra Psatz Sorted.
Import ListNotations.

Set Implicit Arguments.

(** ** Python exceptions and results *)

Inductive exn : Set :=
| ZeroDivisionError.

Inductive result (A : Type) : Type :=
| Ok (a : A)
| Raise (e : exn).

Arguments Ok {A} a.
Arguments Raise {A} e.

Definition bind {A B : Type} (r : result A) (k : A -> result B) : result B :=
  match r with
  | Ok a => k a
  | Raise e => Raise e
  end.

Notation "x <- r ;; k" := (bind r (fun x => k))
  (at level 61, r at next level, right associativity).

(** ** [for] loops with [break] *)

Inductive flow : Set :=
| Continue
| Break.

(** [for n in ns: body], where the body may raise or [break]. *)
Fixpoint for_each {S : Type} (body : Z -> S -> result (flow * S))
    (ns : list Z) (st : S) : result S :=
  match ns with
  | [] => Ok st
  | n :: ns' =>
      match body n st with
      | Raise e => Raise e
      | Ok (Break, st') => Ok st'
      | Ok (Continue, st') => for_each body ns' st'
      end
  end.

(** [range(lo, hi)]. *)
Definition range (lo hi : Z) : list Z :=
  map (fun i => lo + Z.of_nat i)%Z (seq 0 (Z.to_nat (hi - lo))).

(** ** The numbers of the script *)

Class Number (F : Type) : Type := {
  (** an [int] used where a [float] is expected *)
  of_int : Z -> F;
  (** the decimal literal [m / 10^k], as in [1.5] = [dec 15 1] *)
  dec : Z -> nat -> F;
  add : F -> F -> F;
  sub : F -> F -> F;
  mul : F -> F -> F;
  opp : F -> F;
  (** [x / y] for a divisor that is not zero *)
  quot : F -> F -> F;
  (** [y == 0], the test behind [ZeroDivisionError] *)
  is_zero : F -> bool;
  (** [x <= y] *)
  leb : F -> F -> bool
}.

(** Python's true division: a zero divisor raises. *)
Definition div {F : Type} `{Number F} (x y : F) : result F :=
  if is_zero y then Raise ZeroDivisionError else Ok (quot x y).

(** *** Binary64 *)

Module Binary64.

(** [float(z)]: the integer rounded to the nearest binary64 value. *)
Definition float_of_int (z : Z) : float :=
  SF2Prim (binary_normalize prec emax z 0 false).

(** A decimal literal with at most 15 significant digits is the quotient
    of two integers that binary64 holds exactly, and IEEE division rounds
    that quotient correctly, which is how Python reads the literal. *)
Definition float_of_dec (m : Z) (k : nat) : float :=
  PrimFloat.div (float_of_int m) (float_of_int (10 ^ Z.of_nat k)).

#[global] Instance number : Number float := {
  of_int := float_of_int;
  dec := float_of_dec;
  add := PrimFloat.add;
  sub := PrimFloat.sub;
  mul := PrimFloat.mul;
  opp := PrimFloat.opp;
  quot := PrimFloat.div;
  is_zero := fun y => PrimFloat.eqb y PrimFloat.zero;
  leb := PrimFloat.leb
}.

(** The rational number a finite binary64 value stands for. *)
Definition to_Q (x : float) : option Q :=
  match Prim2SF x with
  | S754_zero _ => Some 0%Q
  | S754_finite s m e =>
      let v := (inject_Z (Zpos m) * Qpower 2 e)%Q in
      Some (if s then Qopp v else v)
  | S754_infinity _ => None
  | S754_nan => None
  end.

(** [x] is finite and within [eps] of the rational [q]. *)
Definition near (x : float) (q eps : Q) : bool :=
  match to_Q x with
  | Some v => Qle_bool (q - eps) v && Qle_bool v (q + eps)
  | None => false
  end.

End Binary64.

(** *** Exact rationals *)

Module Exact.

Definition Qc_of_dec (m : Z) (k : nat) : Qc :=
  Q2Qc (Qmake m (Z.to_pos (10 ^ Z.of_nat k))).

#[global] Instance number : Number Qc := {
  of_int := fun z => Q2Qc (inject_Z z);
  dec := Qc_of_dec;
  add := Qcplus;
  sub := Qcminus;
  mul := Qcmult;
  opp := Qcopp;
  quot := Qcdiv;
  is_zero := fun y => if Qc_eq_dec y (Q2Qc 0) then true else false;
  leb := fun x y => Qle_bool (this x) (this y)
}.

End Exact.

(** ** The script *)

Section Script.

Context {F : Type} `{Number F}.

(** The sidebar inputs (lines 8-17). *)
Record Sidebar : Type := {
  num_trades : Z;
  commission_per_lot : F;
  profit_per_0_01_lot : F;
  loss_per_0_01_lot : F;
  target_win_per_trade : F
}.

(** The values the widgets start with. *)
Definition defaults : Sidebar := {|
  num_trades := 11;
  commission_per_lot := dec 15 1;
  profit_per_0_01_lot := dec 12 1;
  loss_per_0_01_lot := dec 10 1;
  target_win_per_trade := dec 10 1
|}.

(** The ranges the widgets enforce: the slider's [1 .. 20] and each number
    input's [min_value]. *)
Definition in_widget_ranges (p : Sidebar) : bool :=
  (1 <=? num_trades p)%Z && (num_trades p <=? 20)%Z &&
  leb (dec 0 1) (commission_per_lot p) &&
  leb (dec 1 2) (profit_per_0_01_lot p) &&
  leb (dec 1 2) (loss_per_0_01_lot p) &&
  leb (dec 0 1) (target_win_per_trade p).

Variable p : Sidebar.

(** [profit_per_0_01_lot * 100 - commission_per_lot], the divisor of both
    lot size formulas. *)
Definition net_win_rate : F :=
  sub (mul (profit_per_0_01_lot p) (of_int 100)) (commission_per_lot p).

(** [loss_per_0_01_lot * 100 + commission_per_lot]. *)
Definition net_loss_rate : F :=
  add (mul (loss_per_0_01_lot p) (of_int 100)) (commission_per_lot p).

(** *** Progressive lot size table (lines 36-63) *)

(** One entry of [data], before formatting. *)
Record Row : Type := {
  trade : Z;
  desired_total_profit : F;
  lot_size : F;
  if_win : F;
  if_lose : F;
  cumulative_loss_if_lose : F
}.

(** The globals the loop updates: the module-level [cumulative_loss] and
    [data]. *)
Record Globals : Type := {
  g_cumulative_loss : F;
  data : list Row
}.

Definition progression_body (n : Z) (g : Globals) : result (flow * Globals) :=
  L_n <- div (sub (mul (of_int n) (target_win_per_trade p)) (g_cumulative_loss g))
             (sub (mul (profit_per_0_01_lot p) (of_int 100)) (commission_per_lot p)) ;;
  let win_amount :=
    mul (sub (mul (profit_per_0_01_lot p) (of_int 100)) (commission_per_lot p)) L_n in
  let lose_amount :=
    mul (opp (add (mul (loss_per_0_01_lot p) (of_int 100)) (commission_per_lot p))) L_n in
  let hypothetical_cumulative_loss := add (g_cumulative_loss g) lose_amount in
  Ok (Continue,
      {| g_cumulative_loss := hypothetical_cumulative_loss;
         data := data g ++
           [ {| trade := n;
                desired_total_profit := mul (target_win_per_trade p) (of_int n);
                lot_size := L_n;
                if_win := win_amount;
                if_lose := lose_amount;
                cumulative_loss_if_lose := hypothetical_cumulative_loss |} ] |}).

Definition progression_run (sofar : Globals) (ns : list Z) : result Globals :=
  for_each progression_body ns sofar.

Definition initial_globals : Globals :=
  {| g_cumulative_loss := dec 0 1; data := [] |}.

(** [data] after [for n in range(1, k + 1)]. *)
Definition progression_of (k : Z) : result (list Row) :=
  g <- progression_run initial_globals (range 1 (k + 1)) ;;
  Ok (data g).

(** The table the script builds: [data] after the loop over
    [range(1, num_trades + 1)]. *)
Definition progression : result (list Row) :=
  progression_of (num_trades p).

(** *** Adjusted loss support table (lines 82-138) *)

(** An account plan.  The script's plans hold [int]s, which Python converts
    wherever they meet a [float]; at these magnitudes the conversion is
    exact. *)
Record Plan : Type := {
  account_size : F;
  max_overall_loss : F
}.

Definition plans : list Plan :=
  [ {| account_size := of_int 6000; max_overall_loss := of_int 600 |};
    {| account_size := of_int 15000; max_overall_loss := of_int 1500 |};
    {| account_size := of_int 25000; max_overall_loss := of_int 2500 |};
    {| account_size := of_int 50000; max_overall_loss := of_int 5000 |};
    {| account_size := of_int 100000; max_overall_loss := of_int 10000 |};
    {| account_size := of_int 200000; max_overall_loss := of_int 20000 |} ].

(** The local variables of one pass of the outer loop.  [n], [L_n] and
    [lose_amount] are unbound until the inner loop has run once. *)
Record Locals : Type := {
  cumulative_loss : F;
  losses_supported : Z;
  last_trade_lot_size : F;
  n_var : option Z;
  L_n_var : option F;
  lose_amount_var : option F
}.

Definition initial_locals : Locals := {|
  cumulative_loss := dec 0 1;
  losses_supported := 0;
  last_trade_lot_size := dec 0 1;
  n_var := None;
  L_n_var := None;
  lose_amount_var := None
|}.

(** Lines 103-117. *)
Definition loss_body (max_loss : F) (n : Z) (l : Locals) : result (flow * Locals) :=
  L_n <- div (sub (mul (of_int n) (target_win_per_trade p)) (cumulative_loss l))
             (sub (mul (profit_per_0_01_lot p) (of_int 100)) (commission_per_lot p)) ;;
  let lose_amount :=
    mul (opp (add (mul (loss_per_0_01_lot p) (of_int 100)) (commission_per_lot p))) L_n in
  let cumulative_loss' := add (cumulative_loss l) lose_amount in
  if leb cumulative_loss' (opp max_loss) then
    Ok (Break,
        {| cumulative_loss := cumulative_loss';
           losses_supported := n - 1;
           last_trade_lot_size := last_trade_lot_size l;
           n_var := Some n;
           L_n_var := Some L_n;
           lose_amount_var := Some lose_amount |})
  else
    Ok (Continue,
        {| cumulative_loss := cumulative_loss';
           losses_supported := losses_supported l;
           last_trade_lot_size := L_n;
           n_var := Some n;
           L_n_var := Some L_n;
           lose_amount_var := Some lose_amount |}).

(** The inner loop over the trades [ns], from the locals [l]. *)
Definition loss_run (max_loss : F) (l : Locals) (ns : list Z) : result Locals :=
  for_each (loss_body max_loss) ns l.

(** The inner loop as the script runs it: [for n in range(1, 100)]. *)
Definition simulate_losses (max_loss : F) : result Locals :=
  loss_run max_loss initial_locals (range 1 100).

(** [max(losses_supported - 1, 0)] (line 120). *)
Definition adjusted (l : Locals) : Z := Z.max (losses_supported l - 1) 0.

(** One entry of [results], before formatting. *)
Record Support : Type := {
  s_account_size : F;
  s_max_overall_loss : F;
  adjusted_losses_supported : Z;
  eight_percent : F;
  five_percent : F;
  thirteen_percent : F;
  lot_size_in_last_trade : F
}.

(** One pass of the outer loop (lines 96-136). *)
Definition support_of_plan (plan : Plan) : result Support :=
  l <- simulate_losses (max_overall_loss plan) ;;
  Ok {| s_account_size := account_size plan;
        s_max_overall_loss := max_overall_loss plan;
        adjusted_losses_supported := adjusted l;
        eight_percent := mul (dec 8 2) (account_size plan);
        five_percent := mul (dec 5 2) (account_size plan);
        thirteen_percent := mul (dec 13 2) (account_size plan);
        lot_size_in_last_trade := last_trade_lot_size l |}.

Fixpoint calculate_loss_support_with_last_lot (plans : list Plan)
    : result (list Support) :=
  match plans with
  | [] => Ok []
  | plan :: rest =>
      r <- support_of_plan plan ;;
      rs <- calculate_loss_support_with_last_lot rest ;;
      Ok (r :: rs)
  end.

(** The script from top to bottom: the first table, then the second. *)
Definition app : result (list Row * list Support) :=
  df <- progression ;;
  adjusted_table_with_last_lot <- calculate_loss_support_with_last_lot plans ;;
  Ok (df, adjusted_table_with_last_lot).

End Script.

Arguments Sidebar F : clear implicits.
Arguments Row F : clear implicits.
Arguments Globals F : clear implicits.
Arguments Plan F : clear implicits.
Arguments Locals F : clear implicits.
Arguments Support F : clear implicits.

(** * The vocabulary of the claims *)

(** ** Loops *)

(** Every pass over [ns] reached the end of the body: no [break], no
    exception. *)
Inductive runs_through {S : Type} (body : Z -> S -> result (flow * S))
    : list Z -> S -> S -> Prop :=
| through_nil st : runs_through body [] st st
| through_cons n ns st st1 st2 :
    body n st = Ok (Continue, st1) ->
    runs_through body ns st1 st2 ->
    runs_through body (n :: ns) st st2.

(** The longest prefix whose elements all pass [f]. *)
Fixpoint take_while {A : Type} (f : A -> bool) (l : list A) : list A :=
  match l with
  | [] => []
  | a :: l' => if f a then a :: take_while f l' else []
  end.

(** ** The loss support loop, trade by trade *)

Section Trades.

Context {F : Type} `{Number F}.
Variable p : Sidebar F.
Variable max_loss : F.

(** The test of line 114 on the locals. *)
Definition breached (l : Locals F) : bool :=
  leb (cumulative_loss l) (opp max_loss).

(** The locals once the loop has been given the trades [1 .. j]. *)
Definition loss_after (j : Z) : result (Locals F) :=
  loss_run p max_loss initial_locals (range 1 (j + 1)).

(** After [j] trades the cumulative loss is above the limit. *)
Definition supports (j : Z) : bool :=
  match loss_after j with
  | Ok l => negb (breached l)
  | Raise _ => false
  end.

(** After [n] trades the cumulative loss has reached the limit. *)
Definition breaches (n : Z) : bool :=
  match loss_after n with
  | Ok l => breached l
  | Raise _ => false
  end.

(** ** The losing streak as a list of rows *)

(** The trade of row [r] leaves the cumulative loss above [-max_loss]. *)
Definition above_limit (r : Row F) : bool :=
  negb (leb (cumulative_loss_if_lose r) (opp max_loss)).

(** The trade of row [r] brings the cumulative loss to [-max_loss] or
    below: the test of line 114 on a row. *)
Definition reaches (r : Row F) : bool :=
  negb (above_limit r).

(** The row of trade [n] when the cumulative loss before it is [c] and the
    divisor is not zero. *)
Definition trade_row (n : Z) (c : F) : Row F :=
  let L_n := quot (sub (mul (of_int n) (target_win_per_trade p)) c) (net_win_rate p) in
  let lose_amount := mul (opp (net_loss_rate p)) L_n in
  {| trade := n;
     desired_total_profit := mul (target_win_per_trade p) (of_int n);
     lot_size := L_n;
     if_win := mul (net_win_rate p) L_n;
     if_lose := lose_amount;
     cumulative_loss_if_lose := add c lose_amount |}.

Fixpoint streak (c : F) (ns : list Z) : list (Row F) :=
  match ns with
  | [] => []
  | n :: ns' =>
      trade_row n c :: streak (cumulative_loss_if_lose (trade_row n c)) ns'
  end.

(** Each element is [<=] the next. *)
Fixpoint nondecreasingb (l : list F) : bool :=
  match l with
  | [] => true
  | a :: l' =>
      match l' with
      | [] => true
      | b :: _ => leb a b && nondecreasingb l'
      end
  end.

End Trades.

(** ** Binary64 against the exact identities *)

(** For each row, [if_win + C] is within [eps] of [trade * target], where
    [C] is the cumulative loss before the row and the three doubles are
    taken as the rationals they stand for. *)
Fixpoint restores_target (eps : Q) (target c : float) (rows : list (Row float))
    : bool :=
  match rows with
  | [] => true
  | r :: rows' =>
      match Binary64.to_Q (if_win r), Binary64.to_Q c, Binary64.to_Q target with
      | Some w, Some c', Some t =>
          Qle_bool (Qabs (w + c' - inject_Z (trade r) * t)) eps
      | _, _, _ => false
      end
      && restores_target eps target (cumulative_loss_if_lose r) rows'
  end.

(** The signs C10 names, on one row. *)
Definition row_signsb {F : Type} `{Number F} (r : Row F) : bool :=
  leb (cumulative_loss_if_lose r) (dec 0 1) &&
  leb (dec 0 1) (lot_size r) &&
  leb (if_lose r) (dec 0 1).

(** ** Signs, in exact arithmetic *)





(** ** Scaling the stakes, in exact arithmetic *)




(** ** Inputs used as examples *)

(** The first two of [plans]. *)
Definition plan_6000 {F : Type} `{Number F} : Plan F :=
  {| account_size := of_int 6000; max_overall_loss := of_int 600 |}.

Definition plan_15000 {F : Type} `{Number F} : Plan F :=
  {| account_size := of_int 15000; max_overall_loss := of_int 1500 |}.

(** Sidebar values within the widgets' ranges under which losses grow
    slowly: loss per 0.01 lot 0.01, target win per trade 5.0, the rest as
    the widgets start. *)
Definition slow_inputs {F : Type} `{Number F} : Sidebar F := {|
  num_trades := 11;
  commission_per_lot := dec 15 1;
  profit_per_0_01_lot := dec 12 1;
  loss_per_0_01_lot := dec 1 2;
  target_win_per_trade := dec 50 1
|}.

(** Commission 120.0 against profit 1.2 per 0.01 lot: the net win rate
    is zero. *)
Definition zero_rate_inputs {F : Type} `{Number F} : Sidebar F := {|
  num_trades := 11;
  commission_per_lot := dec 1200 1;
  profit_per_0_01_lot := dec 12 1;
  loss_per_0_01_lot := dec 10 1;
  target_win_per_trade := dec 10 1
|}.

(** Commission 200.0 against profit 1.2 per 0.01 lot: the net win rate
    is -80. *)
Definition negative_rate_inputs {F : Type} `{Number F} : Sidebar F := {|
  num_trades := 11;
  commission_per_lot := dec 2000 1;
  profit_per_0_01_lot := dec 12 1;
  loss_per_0_01_lot := dec 10 1;
  target_win_per_trade := dec 10 1
|}.

(** * Loops and ranges *)

Section Loops.

Lemma range_nil (lo hi : Z) : (hi <= lo)%Z -> range lo hi = [].
Proof.
  intros Hle. unfold range.
  replace (Z.to_nat (hi - lo)) with 0%nat by lia. reflexivity.
Qed.

Lemma range_cons (lo hi : Z) :
  (lo < hi)%Z -> range lo hi = lo :: range (lo + 1) hi.
Proof.
  intros Hlt. unfold range.
  replace (Z.to_nat (hi - lo)) with (S (Z.to_nat (hi - (lo + 1)))) by lia.
  cbn [seq map]. f_equal.
  - lia.
  - rewrite <- seq_shift, map_map. apply map_ext. intros i. lia.
Qed.

Lemma range_snoc (lo hi : Z) :
  (lo <= hi)%Z -> range lo (hi + 1) = range lo hi ++ [hi].
Proof.
  intros Hle. unfold range.
  replace (Z.to_nat (hi + 1 - lo)) with (Z.to_nat (hi - lo) + 1)%nat by lia.
  rewrite seq_app, map_app. cbn [seq map Nat.add]. do 2 f_equal. lia.
Qed.

Lemma seq_from (a b : nat) : seq a b = map (Nat.add a) (seq 0 b).
Proof.
  induction a as [| a IH]; cbn.
  - symmetry. apply map_id.
  - rewrite <- seq_shift, IH, map_map. reflexivity.
Qed.

Lemma range_split (lo mid hi : Z) :
  (lo <= mid <= hi)%Z -> range lo hi = range lo mid ++ range mid hi.
Proof.
  intros [Hlo Hhi]. unfold range.
  replace (Z.to_nat (hi - lo))
    with (Z.to_nat (mid - lo) + Z.to_nat (hi - mid))%nat by lia.
  rewrite seq_app, map_app. f_equal. cbn [Nat.add].
  rewrite seq_from, map_map. apply map_ext. intros i. lia.
Qed.

Lemma last_cons {A : Type} (a d : A) (l : list A) :
  last l a = last (a :: l) d.
Proof.
  revert a. induction l as [| b l IH]; intros a; [reflexivity |].
  cbn [last] in *. destruct l; [reflexivity |]. apply (IH a).
Qed.

Lemma length_range (lo hi : Z) : length (range lo hi) = Z.to_nat (hi - lo).
Proof. unfold range. now rewrite length_map, length_seq. Qed.

Lemma in_range (lo hi n : Z) : In n (range lo hi) <-> (lo <= n < hi)%Z.
Proof.
  unfold range. rewrite in_map_iff. split.
  - intros (i & <- & Hi). apply in_seq in Hi. lia.
  - intros Hn. exists (Z.to_nat (n - lo)). split; [lia |].
    apply in_seq. lia.
Qed.

Lemma forallb_range (f : Z -> bool) (lo hi : Z) :
  forallb f (range lo hi) = true ->
  forall j, (lo <= j < hi)%Z -> f j = true.
Proof.
  intros Hall j Hj. rewrite forallb_forall in Hall.
  apply Hall. now apply in_range.
Qed.

Context {S : Type}.
Variable body : Z -> S -> result (flow * S).

Lemma runs_through_for_each ns st st' :
  runs_through body ns st st' -> for_each body ns st = Ok st'.
Proof.
  induction 1 as [st | n ns st st1 st2 Hb _ IH]; cbn.
  - reflexivity.
  - now rewrite Hb.
Qed.

Lemma runs_through_then ns ms st st1 :
  runs_through body ns st st1 ->
  for_each body (ns ++ ms) st = for_each body ms st1.
Proof.
  induction 1 as [st | n ns st st1 st2 Hb _ IH]; cbn.
  - reflexivity.
  - now rewrite Hb.
Qed.

Lemma runs_through_snoc ns n st st1 st2 :
  runs_through body ns st st1 ->
  body n st1 = Ok (Continue, st2) ->
  runs_through body (ns ++ [n]) st st2.
Proof.
  induction 1 as [st | m ns st st1' st2' Hb _ IH]; intros Hn; cbn.
  - econstructor; [eassumption | constructor].
  - econstructor; [eassumption | auto].
Qed.

Lemma runs_through_break ns n ms st st1 st2 :
  runs_through body ns st st1 ->
  body n st1 = Ok (Break, st2) ->
  for_each body (ns ++ n :: ms) st = Ok st2.
Proof.
  intros Hrun Hb. rewrite (runs_through_then _ Hrun). cbn. now rewrite Hb.
Qed.

Lemma runs_through_raise ns n ms st st1 e :
  runs_through body ns st st1 ->
  body n st1 = Raise e ->
  for_each body (ns ++ n :: ms) st = Raise e.
Proof.
  intros Hrun Hb. rewrite (runs_through_then _ Hrun). cbn. now rewrite Hb.
Qed.

End Loops.

(** * The loss support loop, for any arithmetic *)

Section LossSupport.

Context {F : Type} `{Number F}.
Variable p : Sidebar F.
Variable max_loss : F.

Lemma loss_body_continue n l l' :
  loss_body p max_loss n l = Ok (Continue, l') ->
  breached max_loss l' = false /\
  n_var l' = Some n /\
  losses_supported l' = losses_supported l /\
  L_n_var l' = Some (last_trade_lot_size l').
Proof.
  unfold loss_body, div, breached.
  destruct (is_zero _); cbn; [discriminate |].
  destruct (leb _ (opp max_loss)) eqn:Hleb; intros [= <-]; cbn.
  now rewrite Hleb.
Qed.

Lemma loss_body_break n l l' :
  loss_body p max_loss n l = Ok (Break, l') ->
  breached max_loss l' = true /\
  n_var l' = Some n /\
  losses_supported l' = (n - 1)%Z /\
  last_trade_lot_size l' = last_trade_lot_size l.
Proof.
  unfold loss_body, div, breached.
  destruct (is_zero _); cbn; [discriminate |].
  destruct (leb _ (opp max_loss)) eqn:Hleb; intros [= <-]; cbn.
  now rewrite Hleb.
Qed.

(** A run that ends above the limit never took the [break]. *)
Lemma unbreached_runs_through ns l l' :
  loss_run p max_loss l ns = Ok l' ->
  breached max_loss l' = false ->
  runs_through (loss_body p max_loss) ns l l'.
Proof.
  unfold loss_run. revert l.
  induction ns as [| n ns IH]; intros l; cbn.
  - intros [= <-] _. constructor.
  - destruct (loss_body p max_loss n l) as [[[] l1] | e] eqn:Hb;
      [| | discriminate].
    + intros Hrun Hun. econstructor; eauto.
    + intros [= <-] Hun.
      apply loss_body_break in Hb. destruct Hb as [Hbr _]. congruence.
Qed.

Lemma runs_through_losses_supported ns l l' :
  runs_through (loss_body p max_loss) ns l l' ->
  losses_supported l' = losses_supported l.
Proof.
  induction 1 as [l | n ns l l1 l2 Hb _ IH]; [reflexivity |].
  apply loss_body_continue in Hb. destruct Hb as (_ & _ & Hls & _).
  congruence.
Qed.

Lemma runs_through_n_var ns n l l' :
  runs_through (loss_body p max_loss) (ns ++ [n]) l l' ->
  n_var l' = Some n /\ L_n_var l' = Some (last_trade_lot_size l').
Proof.
  revert l. induction ns as [| m ns IH]; intros l Hrun; cbn in Hrun.
  - inversion Hrun as [| ? ? ? l1 ? Hb Hrest]; subst.
    inversion Hrest; subst.
    apply loss_body_continue in Hb. tauto.
  - inversion Hrun; subst. eauto.
Qed.

(** The locals before trade [n] when every earlier trade was supported. *)
Lemma supported_prefix n :
  (1 <= n)%Z ->
  (forall j, (1 <= j < n)%Z -> supports p max_loss j = true) ->
  exists l,
    runs_through (loss_body p max_loss) (range 1 n) initial_locals l /\
    losses_supported l = 0%Z.
Proof.
  intros Hn Hsup.
  destruct (Z.eq_dec n 1) as [-> | Hne].
  - exists initial_locals. split; [constructor | reflexivity].
  - specialize (Hsup (n - 1)%Z ltac:(lia)).
    unfold supports, loss_after in Hsup.
    replace (n - 1 + 1)%Z with n in Hsup by lia.
    destruct (loss_run p max_loss initial_locals (range 1 n)) as [l | e] eqn:Hrun;
      [| discriminate].
    apply negb_true_iff in Hsup.
    exists l. split.
    + now apply unbreached_runs_through.
    + apply unbreached_runs_through in Hrun; [| assumption].
      now apply runs_through_losses_supported in Hrun.
Qed.

End LossSupport.

(** * Where the loss support loop stops *)

(** The example inputs are values the sidebar can deliver. *)
Example example_inputs_in_widget_ranges :
  in_widget_ranges (defaults (F := float)) = true /\
  in_widget_ranges (slow_inputs (F := float)) = true /\
  in_widget_ranges (zero_rate_inputs (F := float)) = true /\
  in_widget_ranges (negative_rate_inputs (F := float)) = true.
Proof. repeat split; vm_compute; reflexivity. Qed.


(** C2. If the cumulative loss of the loss support loop is above
    [-max_loss] after each of the trades [1 .. n-1] and at or below it after
    trade [n], for a trade [n] of [range(1, 100)], then the loop ends at
    trade [n] (the loop variable is left at [n], the limit test holds),
    [losses_supported] is [n - 1] and the reported adjusted count is
    [max(n - 2, 0)]. *)
Theorem breach_stops_loop {F : Type} `{Number F}
    (p : Sidebar F) (plan : Plan F) (n : Z) :
  (1 <= n <= 99)%Z ->
  (forall j, (1 <= j < n)%Z -> supports p (max_overall_loss plan) j = true) ->
  breaches p (max_overall_loss plan) n = true ->
  exists l s,
    simulate_losses p (max_overall_loss plan) = Ok l /\
    breached (max_overall_loss plan) l = true /\
    n_var l = Some n /\
    losses_supported l = (n - 1)%Z /\
    support_of_plan p plan = Ok s /\
    adjusted_losses_supported s = Z.max (n - 2) 0.
Proof.
  intros Hn Hsup Hbr.
  destruct (supported_prefix p (max_overall_loss plan) (proj1 Hn) Hsup)
    as (l0 & Hrun & _).
  unfold breaches, loss_after, loss_run in Hbr.
  rewrite (range_snoc (lo := 1) (hi := n)) in Hbr by lia.
  rewrite (runs_through_then _ Hrun) in Hbr. cbn in Hbr.
  destruct (loss_body p (max_overall_loss plan) n l0) as [[[] l1] | e] eqn:Hb;
    [| | discriminate].
  - apply loss_body_continue in Hb. destruct Hb as [Hun _]. congruence.
  - assert (Hsim : simulate_losses p (max_overall_loss plan) = Ok l1).
    { unfold simulate_losses, loss_run.
      rewrite (range_split (lo := 1) (mid := n) (hi := 100)) by lia.
      rewrite (range_cons (lo := n) (hi := 100)) by lia.
      exact (runs_through_break _ _ Hrun Hb). }
    apply loss_body_break in Hb. destruct Hb as (Hbr1 & Hn1 & Hls & _).
    eexists l1, _. repeat split; try eassumption.
    + unfold support_of_plan. rewrite Hsim. reflexivity.
    + cbn. unfold adjusted. rewrite Hls. f_equal. lia.
Qed.

Lemma breach_stops_loop_witness :
  exists l s,
    simulate_losses (defaults (F := float)) (max_overall_loss plan_6000) = Ok l /\
    breached (max_overall_loss plan_6000) l = true /\
    n_var l = Some 10%Z /\
    losses_supported l = (10 - 1)%Z /\
    support_of_plan (defaults (F := float)) plan_6000 = Ok s /\
    adjusted_losses_supported s = Z.max (10 - 2) 0.
Proof.
  apply (breach_stops_loop (defaults (F := float)) plan_6000 (n := 10)).
  - lia.
  - apply forallb_range. vm_compute. reflexivity.
  - vm_compute. reflexivity.
Defined.

(** C5. If the cumulative loss is above [-max_loss] after each of the trades
    of [range(1, 100)], the loop runs to its last trade, [losses_supported]
    keeps its initial 0 and the reported adjusted count is 0. *)
Theorem unbreached_reports_zero {F : Type} `{Number F}
    (p : Sidebar F) (plan : Plan F) :
  (forall j, (1 <= j < 100)%Z -> supports p (max_overall_loss plan) j = true) ->
  exists l s,
    simulate_losses p (max_overall_loss plan) = Ok l /\
    breached (max_overall_loss plan) l = false /\
    n_var l = Some 99%Z /\
    losses_supported l = 0%Z /\
    support_of_plan p plan = Ok s /\
    adjusted_losses_supported s = 0%Z.
Proof.
  intros Hsup.
  destruct (supported_prefix p (max_overall_loss plan) (n := 100) ltac:(lia) Hsup)
    as (l & Hrun & Hls).
  pose proof (runs_through_for_each Hrun) as Hsim.
  exists l. eexists. repeat split.
  - exact Hsim.
  - specialize (Hsup 99%Z ltac:(lia)).
    unfold supports, loss_after in Hsup.
    change (range 1 (99 + 1)) with (range 1 100) in Hsup.
    unfold loss_run in Hsup. rewrite Hsim in Hsup.
    now apply negb_true_iff in Hsup.
  - change (range 1 100) with (range 1 (99 + 1)) in Hrun.
    rewrite (range_snoc (lo := 1) (hi := 99)) in Hrun by lia.
    now apply runs_through_n_var in Hrun.
  - exact Hls.
  - unfold support_of_plan, simulate_losses, loss_run. rewrite Hsim. reflexivity.
  - cbn. unfold adjusted. rewrite Hls. reflexivity.
Qed.

Lemma unbreached_reports_zero_witness :
  exists l s,
    simulate_losses (slow_inputs (F := float)) (max_overall_loss plan_15000) = Ok l /\
    breached (max_overall_loss plan_15000) l = false /\
    n_var l = Some 99%Z /\
    losses_supported l = 0%Z /\
    support_of_plan (slow_inputs (F := float)) plan_15000 = Ok s /\
    adjusted_losses_supported s = 0%Z.
Proof.
  apply (unbreached_reports_zero (slow_inputs (F := float)) plan_15000).
  apply forallb_range. vm_compute. reflexivity.
Defined.

(** C4. The comment at line 102 announces a maximum of 100 trades; the loop
    is over [range(1, 100)].  Under [slow_inputs] the plan (15000, 1500) is
    never breached, and the last trade simulated is trade 99. *)
Theorem unbreached_plan_simulates_99_trades :
  exists l,
    simulate_losses (slow_inputs (F := float)) (max_overall_loss plan_15000) = Ok l /\
    breached (max_overall_loss plan_15000) l = false /\
    n_var l = Some 99%Z /\
    length (range 1 100) = 99%nat.
Proof.
  eexists. split; [vm_compute; reflexivity |].
  repeat split; vm_compute; reflexivity.
Qed.

(** Whatever the inputs, the loop variable never goes past 99. *)
Lemma loss_run_n_var {F : Type} `{Number F} (p : Sidebar F) (max_loss : F)
    (ns : list Z) (l l' : Locals F) :
  loss_run p max_loss l ns = Ok l' ->
  ns <> [] ->
  exists n, In n ns /\ n_var l' = Some n.
Proof.
  unfold loss_run. revert l.
  induction ns as [| n ns IH]; intros l Hrun Hne; [congruence |].
  cbn in Hrun.
  destruct (loss_body p max_loss n l) as [[[] l1] | e] eqn:Hb; [| | discriminate].
  - destruct ns as [| m ns].
    + cbn in Hrun. injection Hrun as <-.
      apply loss_body_continue in Hb. exists n. split; [now left | tauto].
    + destruct (IH l1 Hrun ltac:(discriminate)) as (k & Hin & Hk).
      exists k. split; [now right | assumption].
  - injection Hrun as <-.
    apply loss_body_break in Hb. exists n. split; [now left | tauto].
Qed.

Lemma simulate_losses_at_most_99 {F : Type} `{Number F}
    (p : Sidebar F) (max_loss : F) (l : Locals F) :
  simulate_losses p max_loss = Ok l ->
  exists n, n_var l = Some n /\ (1 <= n <= 99)%Z.
Proof.
  intros Hsim.
  assert (Hne : range 1 100 <> []) by (rewrite range_cons by lia; discriminate).
  apply loss_run_n_var in Hsim; [| exact Hne].
  destruct Hsim as (n & Hin & Hn).
  exists n. split; [assumption |]. apply in_range in Hin. lia.
Qed.

(** C8. Under [slow_inputs] the plan with the limit 600 reports 76 supported
    losses and the plan with the larger limit 1500, never breached within
    [range(1, 100)], reports 0. *)
Theorem larger_limit_reports_fewer_losses :
  exists s1 s2,
    support_of_plan (slow_inputs (F := float)) plan_6000 = Ok s1 /\
    support_of_plan (slow_inputs (F := float)) plan_15000 = Ok s2 /\
    leb (max_overall_loss (F := float) plan_6000) (max_overall_loss plan_15000) = true /\
    adjusted_losses_supported s1 = 76%Z /\
    adjusted_losses_supported s2 = 0%Z.
Proof.
  do 2 eexists.
  split; [vm_compute; reflexivity |].
  split; [vm_compute; reflexivity |].
  repeat split; vm_compute; reflexivity.
Qed.

(** * The losing streak as a list *)

Section Rows.

Context {F : Type} `{Number F}.
Variable p : Sidebar F.

Lemma progression_body_row n g :
  is_zero (net_win_rate p) = false ->
  progression_body p n g =
    Ok (Continue,
        {| g_cumulative_loss :=
             cumulative_loss_if_lose (trade_row p n (g_cumulative_loss g));
           data := data g ++ [trade_row p n (g_cumulative_loss g)] |}).
Proof.
  unfold progression_body, div, net_win_rate. now intros ->.
Qed.

Lemma progression_run_streak ns g :
  is_zero (net_win_rate p) = false ->
  exists g',
    progression_run p g ns = Ok g' /\
    data g' = data g ++ streak p (g_cumulative_loss g) ns.
Proof.
  intros Hnz. unfold progression_run. revert g.
  induction ns as [| n ns IH]; intros g; cbn [for_each streak].
  - exists g. now rewrite app_nil_r.
  - rewrite (progression_body_row n g Hnz).
    destruct (IH {| g_cumulative_loss :=
                      cumulative_loss_if_lose (trade_row p n (g_cumulative_loss g));
                    data := data g ++ [trade_row p n (g_cumulative_loss g)] |})
      as (g' & -> & Hdata).
    exists g'. split; [reflexivity |].
    rewrite Hdata. cbn [data g_cumulative_loss]. now rewrite <- app_assoc.
Qed.

Lemma progression_of_streak k :
  is_zero (net_win_rate p) = false ->
  progression_of p k = Ok (streak p (dec 0 1) (range 1 (k + 1))).
Proof.
  intros Hnz. unfold progression_of.
  destruct (progression_run_streak (range 1 (k + 1)) initial_globals Hnz)
    as (g' & -> & Hdata).
  cbn. now rewrite Hdata.
Qed.

Lemma length_streak c ns : length (streak p c ns) = length ns.
Proof.
  revert c. induction ns as [| n ns IH]; intros c; cbn; [reflexivity |].
  now rewrite IH.
Qed.

End Rows.

(** * A net win rate that is zero or negative *)

Section NetWinRate.

Context {F : Type} `{Number F}.
Variable p : Sidebar F.

Lemma progression_body_raises n g :
  is_zero (net_win_rate p) = true ->
  progression_body p n g = Raise ZeroDivisionError.
Proof.
  unfold progression_body, div, net_win_rate. now intros ->.
Qed.

Lemma loss_body_raises max_loss n l :
  is_zero (net_win_rate p) = true ->
  loss_body p max_loss n l = Raise ZeroDivisionError.
Proof.
  unfold loss_body, div, net_win_rate. now intros ->.
Qed.

Lemma progression_run_runs_data ns g g' :
  progression_run p g ns = Ok g' ->
  exists rows, data g' = data g ++ rows.
Proof.
  unfold progression_run. revert g.
  induction ns as [| n ns IH]; intros g; cbn.
  - intros [= <-]. exists []. now rewrite app_nil_r.
  - unfold progression_body at 1.
    destruct (div _ _) as [L_n | e]; cbn; [| discriminate].
    intros Hrun. apply IH in Hrun. destruct Hrun as (rows & ->).
    cbn. rewrite <- app_assoc. eauto.
Qed.

Lemma loss_run_runs max_loss ns l :
  is_zero (net_win_rate p) = false ->
  exists l', loss_run p max_loss l ns = Ok l'.
Proof.
  intros Hnz. unfold loss_run. revert l.
  induction ns as [| n ns IH]; intros l; cbn; [eauto |].
  unfold loss_body at 1, div. fold (net_win_rate p). rewrite Hnz. cbn.
  destruct (leb _ (opp max_loss)); eauto.
Qed.

Lemma calculate_runs (ps : list (Plan F)) :
  is_zero (net_win_rate p) = false ->
  exists table,
    calculate_loss_support_with_last_lot p ps = Ok table /\
    length table = length ps.
Proof.
  intros Hnz. induction ps as [| plan ps (table & IH & Hlen)]; cbn.
  - exists []. split; reflexivity.
  - unfold support_of_plan, simulate_losses.
    destruct (loss_run_runs (max_overall_loss plan) (range 1 100) initial_locals Hnz)
      as (l & ->).
    cbn. rewrite IH. cbn. eexists. split; [reflexivity |]. cbn. congruence.
Qed.

End NetWinRate.

(** C3, as the script behaves.  A net win rate equal to zero makes the first
    division raise [ZeroDivisionError]: neither table is produced.  Any
    other net win rate, a negative one included, is not rejected: both loops
    run to their end and the script returns its two tables. *)
Theorem zero_rate_raises_other_rates_run {F : Type} `{Number F} (p : Sidebar F) :
  (1 <= num_trades p)%Z ->
  if is_zero (net_win_rate p) then
    progression p = Raise ZeroDivisionError /\
    (forall plan rest,
       calculate_loss_support_with_last_lot p (plan :: rest) =
         Raise ZeroDivisionError) /\
    app p = Raise ZeroDivisionError
  else
    exists df table,
      progression p = Ok df /\
      calculate_loss_support_with_last_lot p plans = Ok table /\
      app p = Ok (df, table) /\
      length df = Z.to_nat (num_trades p) /\
      length table = 6%nat.
Proof.
  intros Hk. destruct (is_zero (net_win_rate p)) eqn:Hz.
  - assert (Hprog : progression p = Raise ZeroDivisionError).
    { unfold progression, progression_of, progression_run.
      rewrite range_cons by lia. cbn.
      now rewrite progression_body_raises. }
    repeat split.
    + exact Hprog.
    + intros plan rest. cbn.
      unfold support_of_plan, simulate_losses, loss_run.
      rewrite range_cons by lia. cbn.
      now rewrite loss_body_raises.
    + unfold app. now rewrite Hprog.
  - pose proof (progression_of_streak p (num_trades p) Hz) as Hdf.
    destruct (calculate_runs p plans Hz) as (table & Htab & Hlen).
    eexists _, table. repeat split.
    + exact Hdf.
    + exact Htab.
    + unfold app, progression. now rewrite Hdf, Htab.
    + rewrite length_streak, length_range. f_equal. lia.
    + exact Hlen.
Qed.

Lemma zero_rate_raises_other_rates_run_witness :
  progression (zero_rate_inputs (F := float)) = Raise ZeroDivisionError /\
  (forall plan rest,
     calculate_loss_support_with_last_lot (zero_rate_inputs (F := float))
       (plan :: rest) = Raise ZeroDivisionError) /\
  app (zero_rate_inputs (F := float)) = Raise ZeroDivisionError.
Proof.
  pose proof (zero_rate_raises_other_rates_run (zero_rate_inputs (F := float)))
    as Hrun.
  assert (Hz : is_zero (net_win_rate (zero_rate_inputs (F := float))) = true)
    by (vm_compute; reflexivity).
  rewrite Hz in Hrun. apply Hrun. cbn. lia.
Defined.

(** C3 as stated fails: with commission 200.0 the net win rate is -80, no
    error is raised and both tables are produced. *)
Lemma negative_rate_not_rejected :
  leb (net_win_rate (negative_rate_inputs (F := float))) (dec 0 1) = true /\
  is_zero (net_win_rate (negative_rate_inputs (F := float))) = false /\
  exists df table,
    app (negative_rate_inputs (F := float)) = Ok (df, table) /\
    length df = 11%nat /\
    length table = 6%nat.
Proof.
  split; [vm_compute; reflexivity |].
  split; [vm_compute; reflexivity |].
  do 2 eexists. split; [vm_compute; reflexivity |].
  split; reflexivity.
Qed.

(** * The two loops walk the same losing streak *)

Section Streak.

Context {F : Type} `{Number F}.
Variable p : Sidebar F.
Variable max_loss : F.

(** Trade by trade the loss support loop computes the lot size and the
    cumulative loss of the progression table, until it breaks. *)
Lemma loss_run_follows_progression ns g g' l :
  g_cumulative_loss g = cumulative_loss l ->
  progression_run p g ns = Ok g' ->
  exists rows l',
    data g' = data g ++ rows /\
    loss_run p max_loss l ns = Ok l' /\
    last_trade_lot_size l' =
      last (map (@lot_size F) (take_while (above_limit max_loss) rows))
           (last_trade_lot_size l) /\
    losses_supported l' =
      match find (fun r => negb (above_limit max_loss r)) rows with
      | Some r => (trade r - 1)%Z
      | None => losses_supported l
      end.
Proof.
  unfold progression_run, loss_run. revert g l.
  induction ns as [| n ns IH]; intros g l Hcum; cbn.
  - intros [= <-]. exists [], l. cbn. rewrite app_nil_r. auto.
  - unfold progression_body at 1, loss_body at 1. rewrite Hcum.
    destruct (div _ _) as [L_n | e]; cbn; [| discriminate].
    set (lose_amount := mul (opp _) L_n).
    set (r := Build_Row _ _ _ _ _ _).
    intros Hrun.
    destruct (leb (add (cumulative_loss l) lose_amount) (opp max_loss)) eqn:Hleb.
    + destruct (progression_run_runs_data _ _ _ Hrun) as (rest & Hrest).
      exists (r :: rest). eexists. cbn [data] in Hrest. split.
      { rewrite Hrest, <- app_assoc. reflexivity. }
      split; [reflexivity |].
      assert (Hr : above_limit max_loss r = false)
        by (unfold above_limit; cbn; now rewrite Hleb).
      cbn [take_while find map last_trade_lot_size losses_supported].
      rewrite Hr. cbn. auto.
    + match type of Hrun with
      | for_each _ _ ?g1 = _ =>
          destruct (IH g1
                      (Build_Locals (add (cumulative_loss l) lose_amount)
                         (losses_supported l) L_n (Some n) (Some L_n)
                         (Some lose_amount))
                      eq_refl Hrun)
            as (rest & l' & Hdata & Hloss & Hlast & Hsupported)
      end.
      exists (r :: rest), l'.
      cbn [data last_trade_lot_size losses_supported] in *. split.
      { rewrite Hdata, <- app_assoc. reflexivity. }
      split; [exact Hloss |].
      assert (Hr : above_limit max_loss r = true)
        by (unfold above_limit; cbn; now rewrite Hleb).
      rewrite Hlast, Hsupported. cbn [take_while find map].
      rewrite Hr. cbn [negb map]. split; [apply last_cons | reflexivity].
Qed.

End Streak.



(** A limit the first trade already reaches: the reported lot size is the
    initial [0.0]. *)
Example first_trade_breaches :
  exists l,
    simulate_losses (defaults (F := float)) (dec 5 1) = Ok l /\
    n_var l = Some 1%Z /\
    last_trade_lot_size l = PrimFloat.zero.
Proof.
  eexists. split; [vm_compute; reflexivity |]. split; reflexivity.
Qed.

(** * Exact arithmetic *)

(** Goals over canonical rationals, restated over [Q] for [lra] and [nra]. *)
Ltac to_Q :=
  unfold Qclt, Qcle, Qcminus, Qcplus, Qcmult, Qcopp, Q2Qc in *;
  cbn [this] in *; rewrite ?Qred_correct in *.

Section ExactArithmetic.

Open Scope Qc_scope.

Lemma exact_leb (x y : Qc) : leb x y = true <-> x <= y.
Proof. cbn. apply Qle_bool_iff. Qed.










End ExactArithmetic.

(** * Signs and growth along the losing streak *)

Section ExactStreak.

Open Scope Qc_scope.

Variable p : Sidebar Qc.
Hypothesis commission_nonneg : 0 <= commission_per_lot p.
Hypothesis rate_pos : 0 < net_win_rate p.
Hypothesis loss_pos : 0 < loss_per_0_01_lot p.
Hypothesis target_nonneg : 0 <= target_win_per_trade p.










End ExactStreak.

(** * The claims of exact arithmetic *)

Section ExactClaims.

Open Scope Qc_scope.






End ExactClaims.

(** * The first trade under the default parameters *)

(** C9, with the amounts the script computes.  In binary64, under the
    default parameters, the net win rate is exactly 118.5 and trade 1 has a
    lot size of 0.00844, a win amount of 1.0000, a loss amount of -0.8565
    and a cumulative loss of -0.8565, each to within half a unit of its last
    decimal. *)
Theorem first_default_trade :
  exists r,
    progression_of (defaults (F := float)) 1 = Ok [r] /\
    trade r = 1%Z /\
    Binary64.near (net_win_rate (defaults (F := float))) (1185 # 10) 0 = true /\
    Binary64.near (lot_size r) (844 # 100000) (5 # 1000000) = true /\
    Binary64.near (if_win r) (10000 # 10000) (5 # 100000) = true /\
    Binary64.near (if_lose r) (- (8565 # 10000)) (5 # 100000) = true /\
    Binary64.near (cumulative_loss_if_lose r) (- (8565 # 10000)) (5 # 100000) = true.
Proof.
  eexists. split; [vm_compute; reflexivity |].
  repeat split; vm_compute; reflexivity.
Qed.

(** The same amounts in exact arithmetic: the loss of trade 1 is
    [-203/237]. *)
Example first_default_trade_exact :
  progression_of (defaults (F := Qc)) 1 =
    Ok [trade_row defaults 1 (dec 0 1)] /\
  this (lot_size (trade_row (defaults (F := Qc)) 1 (dec 0 1))) = (2 # 237)%Q /\
  this (if_win (trade_row (defaults (F := Qc)) 1 (dec 0 1))) = 1%Q /\
  this (if_lose (trade_row (defaults (F := Qc)) 1 (dec 0 1))) = (- 203 # 237)%Q.
Proof.
  split.
  - rewrite progression_of_streak by (vm_compute; reflexivity). reflexivity.
  - repeat split; vm_compute; reflexivity.
Qed.

(** C9 as stated fails: the loss amount of trade 1 is not within five units
    of the fourth decimal of -0.8571. *)
Lemma first_default_loss_is_not_0_8571 :
  ~ (exists r,
       progression_of (defaults (F := float)) 1 = Ok [r] /\
       Binary64.near (lot_size r) (844 # 100000) (5 # 1000000) = true /\
       Binary64.near (if_win r) (10000 # 10000) (5 # 100000) = true /\
       Binary64.near (if_lose r) (- (8571 # 10000)) (5 # 10000) = true /\
       Binary64.near (cumulative_loss_if_lose r) (- (8571 # 10000)) (5 # 10000) = true).
Proof.
  intros (r & Hr & _ & _ & Hlose & _).
  vm_compute in Hr. injection Hr as <-.
  vm_compute in Hlose. discriminate Hlose.
Qed.

(** In binary64 the identity of C1 holds up to rounding only: the win
    amount of trade 1 is the double just below 1. *)
Example first_default_win_is_rounded :
  exists r,
    progression_of (defaults (F := float)) 1 = Ok [r] /\
    PrimFloat.eqb (if_win r) PrimFloat.one = false /\
    Binary64.near (if_win r) 1 (1 # 1000000000000000) = true.
Proof.
  eexists. split; [vm_compute; reflexivity |].
  split; vm_compute; reflexivity.
Qed.

(** In binary64, over the whole range of the slider, a win at any trade of
    the default table restores the target to within a billionth. *)
Example default_wins_restore_target_binary64 :
  exists rows,
    progression_of (defaults (F := float)) 20 = Ok rows /\
    restores_target (1 # 1000000000)
      (target_win_per_trade (defaults (F := float))) (dec 0 1) rows = true.
Proof.
  eexists. split; vm_compute; reflexivity.
Qed.

(** In binary64 the signs of C10 hold on every row of the default streak. *)
Example default_signs_binary64 :
  exists rows,
    progression_of (defaults (F := float)) 99 = Ok rows /\
    forallb row_signsb rows = true.
Proof.
  eexists. split; vm_compute; reflexivity.
Qed.

(** In binary64 too the default lot sizes are in non-decreasing order, over
    the whole range of the slider and over the trades of the loss support
    loop. *)
Example default_lots_nondecreasing_binary64 :
  exists rows20 rows99,
    progression_of (defaults (F := float)) 20 = Ok rows20 /\
    nondecreasingb (map (@lot_size float) rows20) = true /\
    progression_of (defaults (F := float)) 99 = Ok rows99 /\
    nondecreasingb (map (@lot_size float) rows99) = true.
Proof.
  do 2 eexists.
  split; [vm_compute; reflexivity |].
  split; [vm_compute; reflexivity |].
  split; [vm_compute; reflexivity |].
  vm_compute; reflexivity.
Qed.

(** * A larger limit, when it is reached *)

Section ExactLimits.

Open Scope Qc_scope.

Variable p : Sidebar Qc.
Variables small large : Qc.
Hypothesis small_le_large : small <= large.




End ExactLimits.

(** * The widgets' ranges in exact arithmetic *)

Lemma widget_ranges_signs (p : Sidebar Qc) :
  in_widget_ranges p = true ->
  (0 <= commission_per_lot p /\
   0 < loss_per_0_01_lot p /\
   0 <= target_win_per_trade p)%Qc.
Proof.
  unfold in_widget_ranges. rewrite !andb_true_iff, !exact_leb.
  intros (((((_ & _) & Hc) & _) & Hl) & Ht).
  repeat split.
  - apply Qcle_trans with (2 := Hc). vm_compute. discriminate.
  - apply Qclt_le_trans with (2 := Hl). vm_compute. reflexivity.
  - apply Qcle_trans with (2 := Ht). vm_compute. discriminate.
Qed.

(** * More about the two tables, for any arithmetic *)

Section Tables.

Context {F : Type} `{Number F}.
Variable p : Sidebar F.

Lemma map_trade_streak c ns : map (@trade F) (streak p c ns) = ns.
Proof.
  revert c. induction ns as [| n ns IH]; intros c; cbn; [reflexivity |].
  now rewrite IH.
Qed.

Lemma streak_app c ns ms :
  streak p c (ns ++ ms) =
  streak p c ns ++
  streak p (last (map (@cumulative_loss_if_lose F) (streak p c ns)) c) ms.
Proof.
  revert c. induction ns as [| n ns IH]; intros c.
  - reflexivity.
  - change (streak p c ((n :: ns) ++ ms))
      with (trade_row p n c ::
            streak p (cumulative_loss_if_lose (trade_row p n c)) (ns ++ ms)).
    rewrite IH. cbn [streak map].
    rewrite <- (last_cons _ c). reflexivity.
Qed.

Lemma streak_running_total c ns i r :
  nth_error (streak p c ns) i = Some r ->
  cumulative_loss_if_lose r =
    fold_left add (map (@if_lose F) (firstn (S i) (streak p c ns))) c.
Proof.
  revert c i. induction ns as [| n ns IH]; intros c i; cbn [streak].
  - destruct i; discriminate.
  - destruct i as [| i]; cbn [nth_error].
    + intros [= <-]. reflexivity.
    + intros Hr. rewrite (IH _ _ Hr). reflexivity.
Qed.


Lemma loss_run_losses_supported_cases max_loss ns l l' :
  loss_run p max_loss l ns = Ok l' ->
  losses_supported l' = losses_supported l \/
  exists n, In n ns /\ losses_supported l' = (n - 1)%Z.
Proof.
  unfold loss_run. revert l.
  induction ns as [| n ns IH]; intros l; cbn [for_each].
  - intros [= <-]. now left.
  - destruct (loss_body p max_loss n l) as [[[] l1] | e] eqn:Hb; [| | discriminate].
    + intros Hrun. apply IH in Hrun.
      apply loss_body_continue in Hb. destruct Hb as (_ & _ & Hls & _).
      destruct Hrun as [Hsame | (m & Hin & Hm)].
      * left. congruence.
      * right. exists m. split; [now right | assumption].
    + intros [= <-]. apply loss_body_break in Hb.
      destruct Hb as (_ & _ & Hls & _).
      right. exists n. split; [now left | assumption].
Qed.

(** When the loss support loop stops, its locals are those of one row of
    the progression table: the row of the trade it stopped at. *)
Lemma loss_run_stops_on_row max_loss ns g g' l :
  g_cumulative_loss g = cumulative_loss l ->
  progression_run p g ns = Ok g' ->
  ns <> [] ->
  exists rows l' r,
    data g' = data g ++ rows /\
    loss_run p max_loss l ns = Ok l' /\
    In r rows /\
    n_var l' = Some (trade r) /\
    cumulative_loss l' = cumulative_loss_if_lose r /\
    L_n_var l' = Some (lot_size r) /\
    lose_amount_var l' = Some (if_lose r).
Proof.
  unfold progression_run, loss_run. revert g l.
  induction ns as [| n ns IH]; intros g l Hcum Hrun Hne; [congruence |].
  cbn [for_each] in *. revert Hrun.
  unfold progression_body at 1, loss_body at 1. rewrite Hcum.
  destruct (div _ _) as [L_n | e]; cbn [bind]; [| discriminate].
  set (lose_amount := mul (opp _) L_n).
  set (r := Build_Row _ _ _ _ _ _).
  intros Hrun.
  destruct (leb (add (cumulative_loss l) lose_amount) (opp max_loss)) eqn:Hleb.
  - destruct (progression_run_runs_data _ _ _ Hrun) as (rest & Hrest).
    exists (r :: rest). eexists. exists r. cbn [data] in Hrest.
    split; [rewrite Hrest, <- app_assoc; reflexivity |].
    split; [reflexivity |].
    split; [now left |]. cbn. auto.
  - destruct ns as [| m ns].
    + cbn [for_each] in *. injection Hrun as <-.
      exists [r]. eexists. exists r.
      split; [reflexivity |]. split; [reflexivity |].
      split; [now left |]. cbn. auto.
    + match type of Hrun with
      | for_each _ _ ?g1 = _ =>
          destruct (IH g1
                      (Build_Locals (add (cumulative_loss l) lose_amount)
                         (losses_supported l) L_n (Some n) (Some L_n)
                         (Some lose_amount))
                      eq_refl Hrun ltac:(discriminate))
            as (rest & l' & r' & Hdata & Hloss & Hin & Hfields)
      end.
      exists (r :: rest), l', r'. cbn [data] in Hdata.
      split; [rewrite Hdata, <- app_assoc; reflexivity |].
      split; [exact Hloss |].
      split; [now right | exact Hfields].
Qed.

End Tables.

(** X1. When the net win rate is not zero, the progression table for [k]
    trades has one row per trade of [range(1, k + 1)], numbered in that
    order. *)
Theorem table_rows_are_numbered {F : Type} `{Number F} (p : Sidebar F) (k : Z) :
  is_zero (net_win_rate p) = false ->
  exists rows,
    progression_of p k = Ok rows /\
    map (@trade F) rows = range 1 (k + 1) /\
    length rows = Z.to_nat k.
Proof.
  intros Hnz. exists (streak p (dec 0 1) (range 1 (k + 1))).
  split; [now apply progression_of_streak |].
  split; [apply map_trade_streak |].
  rewrite length_streak, length_range. f_equal. lia.
Qed.

Lemma table_rows_are_numbered_witness :
  exists rows,
    progression_of (defaults (F := float)) 11 = Ok rows /\
    map (@trade float) rows = range 1 (11 + 1) /\
    length rows = Z.to_nat 11.
Proof.
  apply (table_rows_are_numbered (defaults (F := float)) 11).
  vm_compute. reflexivity.
Defined.

(** X2. Asking for more trades never changes the rows already there: the
    table for [k] trades is the first [k] rows of the table for any
    [m >= k] trades. *)
Theorem shorter_table_is_prefix {F : Type} `{Number F}
    (p : Sidebar F) (k m : Z) :
  is_zero (net_win_rate p) = false ->
  (k <= m)%Z ->
  exists rows_k rows_m,
    progression_of p k = Ok rows_k /\
    progression_of p m = Ok rows_m /\
    rows_k = firstn (Z.to_nat k) rows_m.
Proof.
  intros Hnz Hkm.
  exists (streak p (dec 0 1) (range 1 (k + 1))),
         (streak p (dec 0 1) (range 1 (m + 1))).
  split; [now apply progression_of_streak |].
  split; [now apply progression_of_streak |].
  destruct (Z.le_gt_cases 1 k) as [Hk | Hk].
  - rewrite (range_split (lo := 1) (mid := k + 1) (hi := m + 1)) by lia.
    rewrite streak_app, firstn_app.
    rewrite length_streak, length_range.
    replace (Z.to_nat (k + 1 - 1)) with (Z.to_nat k) by lia.
    rewrite Nat.sub_diag. cbn [firstn]. rewrite app_nil_r.
    symmetry. apply firstn_all2.
    rewrite length_streak, length_range. lia.
  - rewrite (range_nil (lo := 1) (hi := k + 1)) by lia.
    replace (Z.to_nat k) with 0%nat by lia. reflexivity.
Qed.

Lemma shorter_table_is_prefix_witness :
  exists rows_k rows_m,
    progression_of (defaults (F := float)) 5 = Ok rows_k /\
    progression_of (defaults (F := float)) 11 = Ok rows_m /\
    rows_k = firstn (Z.to_nat 5) rows_m.
Proof.
  apply (@shorter_table_is_prefix float _ defaults 5%Z 11%Z).
  - vm_compute. reflexivity.
  - lia.
Defined.

(** X3. The "Cumulative Loss if Lose" column is the running total of the
    "If Lose" column: the cumulative loss of row [i] is [0.0] plus the loss
    amounts of the rows up to and including [i], added in that order. *)
Theorem cumulative_loss_is_running_total {F : Type} `{Number F}
    (p : Sidebar F) (k : Z) :
  is_zero (net_win_rate p) = false ->
  exists rows,
    progression_of p k = Ok rows /\
    forall i r,
      nth_error rows i = Some r ->
      cumulative_loss_if_lose r =
        fold_left add (map (@if_lose F) (firstn (S i) rows)) (dec 0 1).
Proof.
  intros Hnz. exists (streak p (dec 0 1) (range 1 (k + 1))).
  split; [now apply progression_of_streak |].
  intros i r. apply streak_running_total.
Qed.

Lemma cumulative_loss_is_running_total_witness :
  exists rows,
    progression_of (defaults (F := float)) 11 = Ok rows /\
    forall i r,
      nth_error rows i = Some r ->
      cumulative_loss_if_lose r =
        fold_left add (map (@if_lose float) (firstn (S i) rows)) (dec 0 1).
Proof.
  apply (cumulative_loss_is_running_total (defaults (F := float)) 11).
  vm_compute. reflexivity.
Defined.

(** X4. Whatever the inputs and the plan, a reported number of supported
    losses lies between 0 and 97: the loop stops at trade 99 at the latest,
    which leaves [losses_supported] at most 98. *)
Theorem adjusted_count_bounds {F : Type} `{Number F}
    (p : Sidebar F) (plan : Plan F) (s : Support F) :
  support_of_plan p plan = Ok s ->
  (0 <= adjusted_losses_supported s <= 97)%Z.
Proof.
  unfold support_of_plan, simulate_losses.
  destruct (loss_run p (max_overall_loss plan) initial_locals (range 1 100))
    as [l | e] eqn:Hrun; cbn [bind]; [| discriminate].
  intros [= <-]. cbn [adjusted_losses_supported]. unfold adjusted.
  apply loss_run_losses_supported_cases in Hrun.
  destruct Hrun as [-> | (n & Hin & ->)].
  - cbn. lia.
  - apply in_range in Hin. lia.
Qed.

Lemma adjusted_count_bounds_witness :
  exists s,
    support_of_plan (defaults (F := float)) plan_6000 = Ok s /\
    (0 <= adjusted_losses_supported s <= 97)%Z.
Proof.
  eexists. split.
  - vm_compute. reflexivity.
  - apply (@adjusted_count_bounds float _ defaults plan_6000).
    vm_compute. reflexivity.
Defined.


(** X6. When the loss support loop stops, its locals are those of a row of
    the 99-trade progression table, the row of the trade it stopped at: the
    same cumulative loss, lot size and loss amount. *)
Theorem final_locals_are_a_table_row {F : Type} `{Number F}
    (p : Sidebar F) (plan : Plan F) :
  is_zero (net_win_rate p) = false ->
  exists rows l r,
    progression_of p 99 = Ok rows /\
    simulate_losses p (max_overall_loss plan) = Ok l /\
    In r rows /\
    n_var l = Some (trade r) /\
    cumulative_loss l = cumulative_loss_if_lose r /\
    L_n_var l = Some (lot_size r) /\
    lose_amount_var l = Some (if_lose r).
Proof.
  intros Hnz.
  destruct (progression_run_streak p (range 1 (99 + 1)) initial_globals Hnz)
    as (g' & Hrun & _).
  assert (Hne : range 1 (99 + 1) <> [])
    by (rewrite range_cons by lia; discriminate).
  destruct (@loss_run_stops_on_row F _ p (max_overall_loss plan)
              (range 1 (99 + 1)) initial_globals _ initial_locals
              eq_refl Hrun Hne)
    as (rows & l & r & Hdata & Hloss & Hin & Hfields).
  exists rows, l, r.
  split; [unfold progression_of; rewrite Hrun; cbn; now rewrite Hdata |].
  split; [exact Hloss |].
  split; [exact Hin | exact Hfields].
Qed.

Lemma final_locals_are_a_table_row_witness :
  exists rows l r,
    progression_of (defaults (F := float)) 99 = Ok rows /\
    simulate_losses (defaults (F := float)) (max_overall_loss plan_6000) = Ok l /\
    In r rows /\
    n_var l = Some (trade r) /\
    cumulative_loss l = cumulative_loss_if_lose r /\
    L_n_var l = Some (lot_size r) /\
    lose_amount_var l = Some (if_lose r).
Proof.
  apply (final_locals_are_a_table_row (defaults (F := float)) plan_6000).
  vm_compute. reflexivity.
Defined.

(** * More about the tables, in exact arithmetic *)

Section ExactTables.

Open Scope Qc_scope.




Variable p : Sidebar Qc.



End ExactTables.



Section ExactOrder.

Open Scope Qc_scope.

Variable p : Sidebar Qc.
Hypothesis commission_nonneg : 0 <= commission_per_lot p.
Hypothesis rate_pos : 0 < net_win_rate p.
Hypothesis loss_pos : 0 < loss_per_0_01_lot p.
Hypothesis target_nonneg : 0 <= target_win_per_trade p.



End ExactOrder.






(** * Lists *)








(** * A target of zero, and scaled stakes *)

Section ExactScaling.

Open Scope Qc_scope.

Variable p : Sidebar Qc.
Hypothesis rate_not_zero : net_win_rate p <> 0.






End ExactScaling.









(** * Reading one table off the other, and when the script raises *)

(** X13. The number of supported losses reported for a plan can be read off
    the 99-trade progression table: it is [max(n - 2, 0)] for the trade [n]
    of the first row whose cumulative loss reaches the plan's limit, and 0
    when no row does. *)
Theorem count_is_read_off_the_table {F : Type} `{Number F}
    (p : Sidebar F) (plan : Plan F) :
  is_zero (net_win_rate p) = false ->
  exists rows s,
    progression_of p 99 = Ok rows /\
    support_of_plan p plan = Ok s /\
    adjusted_losses_supported s =
      match find (reaches (max_overall_loss plan)) rows with
      | Some r => Z.max (trade r - 2) 0
      | None => 0%Z
      end.
Proof.
  intros Hnz.
  destruct (progression_run_streak p (range 1 (99 + 1)) initial_globals Hnz)
    as (g' & Hrun & _).
  destruct (@loss_run_follows_progression F _ p (max_overall_loss plan)
              (range 1 (99 + 1)) initial_globals _ initial_locals eq_refl Hrun)
    as (rows & l & Hdata & Hloss & _ & Hsup).
  exists rows. eexists.
  split; [unfold progression_of; rewrite Hrun; cbn; now rewrite Hdata |].
  unfold support_of_plan, simulate_losses.
  change (range 1 100) with (range 1 (99 + 1)). rewrite Hloss.
  cbn [bind]. split; [reflexivity |].
  cbn [adjusted_losses_supported]. unfold adjusted. rewrite Hsup.
  unfold initial_locals. cbn [losses_supported].
  change (fun r => negb (above_limit (max_overall_loss plan) r))
    with (reaches (max_overall_loss plan)).
  destruct (find (reaches (max_overall_loss plan)) rows); lia.
Qed.

Lemma count_is_read_off_the_table_witness :
  exists rows s,
    progression_of (defaults (F := float)) 99 = Ok rows /\
    support_of_plan (defaults (F := float)) plan_6000 = Ok s /\
    adjusted_losses_supported s =
      match find (reaches (max_overall_loss plan_6000)) rows with
      | Some r => Z.max (trade r - 2) 0
      | None => 0%Z
      end.
Proof.
  apply (count_is_read_off_the_table (defaults (F := float)) plan_6000).
  vm_compute. reflexivity.
Defined.



(** X15. The progression loop raises exactly when the net win rate is zero
    and there is at least one trade to compute; the loss support function
    raises exactly when the net win rate is zero and there is at least one
    plan.  With nothing to iterate over, neither divides. *)
Theorem raises_exactly_on_zero_rate {F : Type} `{Number F}
    (p : Sidebar F) (k : Z) (ps : list (Plan F)) :
  (progression_of p k = Raise ZeroDivisionError <->
   is_zero (net_win_rate p) = true /\ (1 <= k)%Z) /\
  (calculate_loss_support_with_last_lot p ps = Raise ZeroDivisionError <->
   is_zero (net_win_rate p) = true /\ ps <> []).
Proof.
  split; split.
  - intros Hraise. destruct (is_zero (net_win_rate p)) eqn:Hz.
    + split; [reflexivity |].
      destruct (Z.le_gt_cases 1 k) as [Hk | Hk]; [assumption |].
      unfold progression_of, progression_run in Hraise.
      rewrite range_nil in Hraise by lia. discriminate.
    + rewrite (progression_of_streak p k Hz) in Hraise. discriminate.
  - intros (Hz & Hk). unfold progression_of, progression_run.
    rewrite range_cons by lia. cbn [for_each].
    now rewrite (progression_body_raises p _ _ Hz).
  - intros Hraise. destruct (is_zero (net_win_rate p)) eqn:Hz.
    + split; [reflexivity |]. intros ->. discriminate.
    + destruct (calculate_runs p ps Hz) as (table & Htable & _).
      congruence.
  - intros (Hz & Hne). destruct ps as [| plan ps]; [congruence |].
    cbn. unfold support_of_plan, simulate_losses, loss_run.
    rewrite range_cons by lia. cbn [for_each].
    now rewrite (loss_body_raises p _ _ _ Hz).
Qed.

(** * Limits that are sure to be reached *)

Section ExactDepth.

Open Scope Qc_scope.



Variable p : Sidebar Qc.
Hypothesis commission_nonneg : 0 <= commission_per_lot p.
Hypothesis rate_pos : 0 < net_win_rate p.
Hypothesis loss_pos : 0 < loss_per_0_01_lot p.
Hypothesis target_nonneg : 0 <= target_win_per_trade p.


End ExactDepth.


